(** * MCP client samples: the approval handshake

    A shallow embedding of the two sample scripts

      - [Python/New/MCP-Client/mcp-custom-create.py]
      - [Python/New/MCP-Client/mcp-microsoft-learn-existing.py]

    Both are straight-line module-level Python: they read the process
    environment, acquire three context managers, call the agent service,
    open a conversation, submit a prompt, scan the response for MCP
    approval requests, and resubmit the approvals.  The scripts are
    modelled as computations in a state-and-exception monad [Py] whose
    state holds [os.environ], the [.env] file as python-dotenv resolves
    it against that environment, and the chronological trace of everything the script does to the outside
    (collaborator calls with their outcome, context-manager exits, lines
    written to stdout).  The collaborators themselves (identity, agent
    service, OpenAI client) are not part of the repository; they appear
    as a [Service] record of arbitrary history-dependent functions. *)

From stdpp Require Import base option list strings gmap fin_maps.
From Stdlib Require Import ZArith.

Open Scope string_scope.
Open Scope list_scope.

(** ** Python values and objects *)

(** The values an attribute of an SDK object may hold, as far as the
    scripts can tell them apart with [==] against a [str] literal and
    with truth-value testing. *)
#[warnings="-register-all"]
Inductive PyVal : Type :=
  | VNone
  | VBool (b : bool)
  | VInt (z : Z)
  | VStr (s : string)
  | VList (l : list PyVal).

(** An output item is a dynamically typed object: the scripts only ever
    reach it through attribute access, so it is its attribute dictionary. *)
Abbreviation Item := (gmap string PyVal).

(** Python truth-value testing ([if x:]). *)
Definition truthy (v : PyVal) : bool :=
  match v with
  | VNone => false
  | VBool b => b
  | VInt z => negb (Z.eqb z 0)
  | VStr s => negb (String.eqb s "")
  | VList l => match l with [] => false | _ :: _ => true end
  end.

(** [v == "literal"]: true only for a [str] with the same characters. *)
Definition py_eq_str (v : PyVal) (lit : string) : bool :=
  match v with
  | VStr s => String.eqb s lit
  | _ => false
  end.

(** ** Exceptions and results *)

Inductive Exn : Type :=
  | KeyError (key : string)
  | AttributeError (name : string)
  | ServiceError (detail : string).

Inductive Result (A : Type) : Type :=
  | Ok (a : A)
  | Raise (e : Exn).
Arguments Ok {A} a.
Arguments Raise {A} e.

(** ** Data exchanged with the collaborators *)

(** [McpApprovalResponse(type=..., approve=..., approval_request_id=...)];
    a [TypedDict], hence a plain dictionary with these three keys. *)
Record McpApprovalResponse : Type := mkMcpApprovalResponse {
  type_ : string;
  approve : bool;
  approval_request_id : PyVal
}.

Module Response.
Record t : Type := mk {
  id : string;
  output : list Item;
  output_text : string
}.
End Response.

Module Agent.
Record t : Type := mk {
  id : string;
  name : string;
  (* [agent.versions.latest.version] *)
  latest_version : string
}.
End Agent.

Module Conversation.
Record t : Type := mk { id : string }.
End Conversation.

(** [MCPTool(server_label=..., server_url=..., require_approval=..., headers=...)] *)
Record MCPTool : Type := mkMCPTool {
  server_label : string;
  server_url : string;
  require_approval : string;
  headers : list (string * string)
}.

(** [PromptAgentDefinition(model=..., instructions=..., tools=[...])] *)
Record PromptAgentDefinition : Type := mkPromptAgentDefinition {
  model : string;
  instructions : string;
  tools : list MCPTool
}.

(** The [input=] argument of [responses.create]: a prompt string on the
    first round, the list of approvals on the second. *)
Inductive ResponseInput : Type :=
  | InputText (prompt : string)
  | InputList (input_list : list McpApprovalResponse).

(** [{"agent": {"name": ..., "type": "agent_reference"}}] *)
Record AgentReference : Type := mkAgentReference {
  ref_name : string;
  ref_type : string
}.

(** Keyword arguments of one [openai_client.responses.create(...)] call;
    an argument the call site does not pass is [None]. *)
Record ResponsesCreate : Type := mkResponsesCreate {
  conversation : option string;
  input : ResponseInput;
  previous_response_id : option string;
  extra_body : AgentReference
}.

(** Opaque handles for the credential and the two clients. *)
Definition Handle := nat.

(** ** The outside world *)

Inductive Call : Type :=
  | DefaultAzureCredential_
  | AIProjectClient_ (endpoint : string) (credential : Handle)
  | get_openai_client_ (project_client : Handle)
  | agents_create_version_ (project_client : Handle) (agent_name : string)
      (definition : PromptAgentDefinition)
  | agents_get_ (project_client : Handle) (agent_name : string)
  | conversations_create_ (openai_client : Handle)
  | responses_create_ (openai_client : Handle) (kwargs : ResponsesCreate).

Inductive Reply : Type :=
  | RHandle (h : Handle)
  | RAgent (a : Agent.t)
  | RConversation (c : Conversation.t)
  | RResponse (r : Response.t).

Inductive Manager : Type := CredentialCM | ProjectClientCM | OpenAIClientCM.

Inductive Stdout : Type :=
  | Line (s : string)
  | Repr (input_list : list McpApprovalResponse).

Inductive Event : Type :=
  | EvCall (c : Call) (r : Result Reply)
  | EvExit (m : Manager) (h : Handle)
  | EvPrint (s : Stdout).

Abbreviation Trace := (list Event).

(** The collaborators: each may fail or answer, depending on its
    arguments and on everything that happened before. *)
Record Service : Type := mkService {
  svc_credential : Trace -> Result Handle;
  svc_project_client : Trace -> string -> Handle -> Result Handle;
  svc_openai_client : Trace -> Handle -> Result Handle;
  svc_agents_create_version :
    Trace -> Handle -> string -> PromptAgentDefinition -> Result Agent.t;
  svc_agents_get : Trace -> Handle -> string -> Result Agent.t;
  svc_conversations_create : Trace -> Handle -> Result Conversation.t;
  svc_responses_create : Trace -> Handle -> ResponsesCreate -> Result Response.t
}.

(** What [load_dotenv()] makes of the [.env] file it finds: the
    variables the file defines, with their values as python-dotenv
    resolves them. Resolution expands [${NAME}] references, and it looks
    the names up in the process environment, so the resolved file is a
    function of that environment. No file, or an empty one, is the
    function that always yields the empty map. *)
Abbreviation DotEnv := (gmap string string -> gmap string string).

Record World : Type := mkWorld {
  environ : gmap string string;
  dotenv_file : DotEnv;
  trace : Trace
}.

(** ** The monad of script fragments *)

Definition Py (A : Type) : Type := World -> World * Result A.

Definition ret {A} (a : A) : Py A := fun w => (w, Ok a).

Definition raise {A} (e : Exn) : Py A := fun w => (w, Raise e).

Definition bind {A B} (m : Py A) (k : A -> Py B) : Py B :=
  fun w =>
    match m w with
    | (w', Ok a) => k a w'
    | (w', Raise e) => (w', Raise e)
    end.

Declare Scope py_scope.
Delimit Scope py_scope with py.
Notation "x <- m ;; k" := (bind m (fun x => k))
  (at level 100, m at next level, right associativity) : py_scope.
Notation "m ;;; k" := (bind m (fun _ => k))
  (at level 100, right associativity) : py_scope.
Open Scope py_scope.

Definition emit (ev : Event) : Py unit :=
  fun w => (mkWorld (environ w) (dotenv_file w) (trace w ++ [ev]), Ok tt).

(** [print(...)] *)
Definition print (s : Stdout) : Py unit := emit (EvPrint s).

(** [load_dotenv()]: the file is resolved against the environment as it
    is, and its variables are added to the environment; a variable that
    is already set keeps its value. *)
Definition load_dotenv : Py unit :=
  fun w =>
    (mkWorld (environ w ∪ dotenv_file w (environ w)) (dotenv_file w) (trace w), Ok tt).

(** [os.environ[key]] *)
Definition os_environ (key : string) : Py string :=
  fun w =>
    match environ w !! key with
    | Some v => (w, Ok v)
    | None => (w, Raise (KeyError key))
    end.

(** [obj.name] on an output item. *)
Definition getattr (obj : Item) (name : string) : Py PyVal :=
  match obj !! name with
  | Some v => ret v
  | None => raise (AttributeError name)
  end.

(** [for x in xs: body], the loop-carried variable threaded through. *)
Fixpoint for_ {A S} (xs : list A) (body : A -> S -> Py S) (s : S) : Py S :=
  match xs with
  | [] => ret s
  | x :: xs' => s' <- body x s ;; for_ xs' body s'
  end.

(** One collaborator call: ask the service, log call and outcome. *)
Definition call {A} (c : Call) (wrap : A -> Reply) (ask : Trace -> Result A) : Py A :=
  fun w =>
    match ask (trace w) with
    | Ok a =>
        (mkWorld (environ w) (dotenv_file w) (trace w ++ [EvCall c (Ok (wrap a))]), Ok a)
    | Raise e =>
        (mkWorld (environ w) (dotenv_file w) (trace w ++ [EvCall c (Raise e)]), Raise e)
    end.

(** [with acquire as h: body]: the manager is left on every exit path
    of the body, and what the body raised keeps propagating. *)
Definition with_ {A} (m : Manager) (acquire : Py Handle) (body : Handle -> Py A) : Py A :=
  fun w =>
    match acquire w with
    | (w1, Raise e) => (w1, Raise e)
    | (w1, Ok h) =>
        match body h w1 with
        | (w2, r) => (mkWorld (environ w2) (dotenv_file w2) (trace w2 ++ [EvExit m h]), r)
        end
    end.

(** ** The approval scan *)

Definition approval (request_id : PyVal) : McpApprovalResponse :=
  mkMcpApprovalResponse "mcp_approval_response" true request_id.

(** The handshake driver's scan: the loop the two scripts share (lines
    75-85 and 60-71), for the server label the caller compares against. *)
Definition approval_step (label : string) (item : Item)
    (input_list : list McpApprovalResponse) : Py (list McpApprovalResponse) :=
  ty <- getattr item "type" ;;
  if py_eq_str ty "mcp_approval_request" then
    sl <- getattr item "server_label" ;;
    (* [a == b and c] yields [c] only when the comparison held *)
    cond <- (if py_eq_str sl label then getattr item "id" else ret (VBool false)) ;;
    if truthy cond then
      request_id <- getattr item "id" ;;
      ret (input_list ++ [approval request_id])
    else ret input_list
  else ret input_list.

(** [input_list = []] followed by the [for item in response.output] loop. *)
Definition collect_approvals (label : string) (output : list Item)
    : Py (list McpApprovalResponse) :=
  for_ output (approval_step label) [].

(** ** Collaborator calls *)

Section Collaborators.
Variable svc : Service.

Definition DefaultAzureCredential : Py Handle :=
  call DefaultAzureCredential_ RHandle (svc_credential svc).

Definition AIProjectClient (endpoint : string) (credential : Handle) : Py Handle :=
  call (AIProjectClient_ endpoint credential) RHandle
    (fun t => svc_project_client svc t endpoint credential).

Definition get_openai_client (project_client : Handle) : Py Handle :=
  call (get_openai_client_ project_client) RHandle
    (fun t => svc_openai_client svc t project_client).

Definition agents_create_version (project_client : Handle) (agent_name : string)
    (definition : PromptAgentDefinition) : Py Agent.t :=
  call (agents_create_version_ project_client agent_name definition) RAgent
    (fun t => svc_agents_create_version svc t project_client agent_name definition).

Definition agents_get (project_client : Handle) (agent_name : string) : Py Agent.t :=
  call (agents_get_ project_client agent_name) RAgent
    (fun t => svc_agents_get svc t project_client agent_name).

Definition conversations_create (openai_client : Handle) : Py Conversation.t :=
  call (conversations_create_ openai_client) RConversation
    (fun t => svc_conversations_create svc t openai_client).

Definition responses_create (openai_client : Handle) (kwargs : ResponsesCreate)
    : Py Response.t :=
  call (responses_create_ openai_client kwargs) RResponse
    (fun t => svc_responses_create svc t openai_client kwargs).

(** The second [responses.create] of either script: the approvals as
    input, chained to the response they answer, for the given agent. *)
Definition resubmit (openai_client : Handle) (input_list : list McpApprovalResponse)
    (prior_response_id : string) (agent_name : string) : Py Response.t :=
  responses_create openai_client
    (mkResponsesCreate None (InputList input_list) (Some prior_response_id)
       (mkAgentReference agent_name "agent_reference")).
End Collaborators.

(** ** mcp-custom-create.py *)

Module CustomCreate.

(** Lines 76-85: the loop body as written; [expected] stands for the
    string literal of line 77. *)
Definition loop_body (expected : string) (item : Item)
    (input_list : list McpApprovalResponse) : Py (list McpApprovalResponse) :=
  ty <- getattr item "type" ;;
  if py_eq_str ty "mcp_approval_request" then
    sl <- getattr item "server_label" ;;
    cond <- (if py_eq_str sl expected
             then getattr item "id" else ret (VBool false)) ;;
    if truthy cond then
      request_id <- getattr item "id" ;;
      ret (input_list ++
             [mkMcpApprovalResponse "mcp_approval_response" true request_id])
    else ret input_list
  else ret input_list.

(** Lines 74-85, with the literal in place. *)
Definition approval_scan (output : list Item) : Py (list McpApprovalResponse) :=
  for_ output (loop_body "custom-mcp-bearer") [].

(** Lines 43-98: the body of the [with] statement. *)
Definition session (svc : Service) (project_client openai_client : Handle) : Py unit :=
  token <- os_environ "CUSTOM_MCP_BEARER_TOKEN" ;;
  let mcp_tool :=
    mkMCPTool "custom-mcp-bearer"
      "https://app-ext-eus2-mcp-profx-01.azurewebsites.net/mcp"
      "never"
      [("Authorization", ("Bearer " ++ token)%string)] in
  model_name <- os_environ "AZURE_AI_MODEL_DEPLOYMENT_NAME" ;;
  agent <- agents_create_version svc project_client "FoundryNew-MCP-CustomAgent"
             (mkPromptAgentDefinition model_name
                "Always use the configured MCP tools when answering queries"
                [mcp_tool]) ;;
  print (Line ("Agent created (id: " ++ Agent.id agent ++ ", name: "
                 ++ Agent.name agent ++ ")")%string) ;;;
  conversation <- conversations_create svc openai_client ;;
  print (Line ("Created conversation (id: " ++ Conversation.id conversation
                 ++ ")")%string) ;;;
  response <- responses_create svc openai_client
                (mkResponsesCreate (Some (Conversation.id conversation))
                   (InputText "multiply 10 and 20") None
                   (mkAgentReference (Agent.name agent) "agent_reference")) ;;
  input_list <- approval_scan (Response.output response) ;;
  print (Line "Final input:") ;;;
  print (Repr input_list) ;;;
  response <- resubmit svc openai_client input_list (Response.id response)
                (Agent.name agent) ;;
  print (Line ("Agent response: " ++ Response.output_text response)%string).

(** Lines 34-98: the whole script. *)
Definition script (svc : Service) : Py unit :=
  load_dotenv ;;;
  endpoint <- os_environ "AZURE_AI_PROJECT_ENDPOINT" ;;
  with_ CredentialCM (DefaultAzureCredential svc) (fun credential =>
  with_ ProjectClientCM (AIProjectClient svc endpoint credential) (fun project_client =>
  with_ OpenAIClientCM (get_openai_client svc project_client) (fun openai_client =>
    session svc project_client openai_client))).

End CustomCreate.

(** ** mcp-microsoft-learn-existing.py *)

Module LearnExisting.

(** Lines 61-71: the loop body as written; [expected] stands for the
    string literal of line 62. *)
Definition loop_body (expected : string) (item : Item)
    (input_list : list McpApprovalResponse) : Py (list McpApprovalResponse) :=
  ty <- getattr item "type" ;;
  if py_eq_str ty "mcp_approval_request" then
    sl <- getattr item "server_label" ;;
    cond <- (if py_eq_str sl expected
             then getattr item "id" else ret (VBool false)) ;;
    if truthy cond then
      request_id <- getattr item "id" ;;
      ret (input_list ++
             [mkMcpApprovalResponse "mcp_approval_response" true request_id])
    else ret input_list
  else ret input_list.

(** Lines 59-71, with the literal in place. *)
Definition approval_scan (output : list Item) : Py (list McpApprovalResponse) :=
  for_ output (loop_body "microsoft-learn-mcp") [].

(** Lines 43-84: the body of the [with] statement. *)
Definition session (svc : Service) (agent_name : string)
    (project_client openai_client : Handle) : Py unit :=
  agent <- agents_get svc project_client agent_name ;;
  print (Line ("Agent retrieved (id: " ++ Agent.id agent ++ ", name: "
                 ++ Agent.name agent ++ ", version: "
                 ++ Agent.latest_version agent ++ ")")%string) ;;;
  conversation <- conversations_create svc openai_client ;;
  print (Line ("Created conversation (id: " ++ Conversation.id conversation
                 ++ ")")%string) ;;;
  response <- responses_create svc openai_client
                (mkResponsesCreate (Some (Conversation.id conversation))
                   (InputText
                      "Please summarize latest features of Azure Cosmos DB from Microsoft Learn.")
                   None
                   (mkAgentReference (Agent.name agent) "agent_reference")) ;;
  input_list <- approval_scan (Response.output response) ;;
  print (Line "Final input:") ;;;
  print (Repr input_list) ;;;
  response <- resubmit svc openai_client input_list (Response.id response)
                (Agent.name agent) ;;
  print (Line ("Agent response: " ++ Response.output_text response)%string).

(** Lines 33-84: the whole script. *)
Definition script (svc : Service) : Py unit :=
  load_dotenv ;;;
  endpoint <- os_environ "AZURE_AI_PROJECT_ENDPOINT" ;;
  agent_name <- os_environ "AZURE_AI_AGENT_NAME" ;;
  with_ CredentialCM (DefaultAzureCredential svc) (fun credential =>
  with_ ProjectClientCM (AIProjectClient svc endpoint credential) (fun project_client =>
  with_ OpenAIClientCM (get_openai_client svc project_client) (fun openai_client =>
    session svc agent_name project_client openai_client))).

End LearnExisting.

(** A fresh process: nothing has happened yet. *)
Definition start (env : gmap string string) (dotenv : DotEnv) : World :=
  mkWorld env dotenv [].

(** No [.env] file. *)
Definition no_dotenv : DotEnv := fun _ => ∅.

(** ** The two programs side by side *)

Inductive Program : Type := McpCustomCreate | McpMicrosoftLearnExisting.

Definition run (p : Program) (svc : Service) : Py unit :=
  match p with
  | McpCustomCreate => CustomCreate.script svc
  | McpMicrosoftLearnExisting => LearnExisting.script svc
  end.

(** The server label each program's scan compares against. *)
Definition expected_label (p : Program) : string :=
  match p with
  | McpCustomCreate => "custom-mcp-bearer"
  | McpMicrosoftLearnExisting => "microsoft-learn-mcp"
  end.

(** What an observer of a whole run gets to see: everything the program
    did, and how it ended. *)
Definition trace_of (p : Program) (svc : Service) (env : gmap string string) (dotenv : DotEnv)
    : Trace :=
  trace (fst (run p svc (start env dotenv))).

Definition result_of (p : Program) (svc : Service) (env : gmap string string) (dotenv : DotEnv)
    : Result unit :=
  snd (run p svc (start env dotenv)).

Definition outcome (p : Program) (svc : Service) (env : gmap string string) (dotenv : DotEnv)
    : Trace * Result unit :=
  (trace_of p svc env dotenv, result_of p svc env dotenv).

(** The keys each program looks up in [os.environ] before it acquires
    anything (lines 36, and 35-36). *)
Definition startup_keys (p : Program) : list string :=
  match p with
  | McpCustomCreate => ["AZURE_AI_PROJECT_ENDPOINT"]
  | McpMicrosoftLearnExisting => ["AZURE_AI_PROJECT_ENDPOINT"; "AZURE_AI_AGENT_NAME"]
  end.

(** The keys it looks up inside the [with] block (lines 48 and 55). *)
Definition session_keys (p : Program) : list string :=
  match p with
  | McpCustomCreate => ["CUSTOM_MCP_BEARER_TOKEN"; "AZURE_AI_MODEL_DEPLOYMENT_NAME"]
  | McpMicrosoftLearnExisting => []
  end.

Definition required_keys (p : Program) : list string :=
  startup_keys p ++ session_keys p.

(** ** Sample collaborators and inputs *)

Module Sample.

Definition env_ok : gmap string string :=
  <["AZURE_AI_PROJECT_ENDPOINT" := "https://example.invalid/api/projects/p"]>
  (<["AZURE_AI_MODEL_DEPLOYMENT_NAME" := "gpt-4o"]>
  (<["CUSTOM_MCP_BEARER_TOKEN" := "secret"]>
  (<["AZURE_AI_AGENT_NAME" := "FoundryNew-MCP-LearnAgent"]> ∅))).

Definition approval_request (label request_id : string) : Item :=
  <["type" := VStr "mcp_approval_request"]>
  (<["server_label" := VStr label]>
  (<["id" := VStr request_id]>
  (<["name" := VStr "multiply"]> ∅))).

Definition text_item : Item :=
  <["type" := VStr "message"]> (<["role" := VStr "assistant"]> ∅).

(** The spec's first scenario. *)
Definition scenario_output : list Item :=
  [approval_request "custom-mcp-bearer" "r1"; text_item;
   approval_request "other-tool" "r2"].

Definition first_round (t : Trace) : bool :=
  forallb (fun ev => match ev with
                     | EvCall (responses_create_ _ _) _ => false
                     | _ => true
                     end) t.

(** A service that always answers; the first prompt yields the scenario. *)
Definition svc_ok : Service :=
  mkService
    (fun _ => Ok 1)
    (fun _ _ _ => Ok 2)
    (fun _ _ => Ok 3)
    (fun _ _ name _ => Ok (Agent.mk "agent-id" name "1"))
    (fun _ _ name => Ok (Agent.mk "agent-id" name "7"))
    (fun _ _ => Ok (Conversation.mk "conv_1"))
    (fun t _ _ =>
       if first_round t
       then Ok (Response.mk "resp_1" scenario_output "")
       else Ok (Response.mk "resp_2" [text_item] "200")).

(** Same, but the resubmission is rejected. *)
Definition svc_reject_second : Service :=
  mkService
    (svc_credential svc_ok) (svc_project_client svc_ok) (svc_openai_client svc_ok)
    (svc_agents_create_version svc_ok) (svc_agents_get svc_ok)
    (svc_conversations_create svc_ok)
    (fun t _ _ =>
       if first_round t
       then Ok (Response.mk "resp_1" scenario_output "")
       else Raise (ServiceError "unknown response id")).

(** Same, but no conversation can be opened. *)
Definition svc_no_conversation : Service :=
  mkService
    (svc_credential svc_ok) (svc_project_client svc_ok) (svc_openai_client svc_ok)
    (svc_agents_create_version svc_ok) (svc_agents_get svc_ok)
    (fun _ _ => Raise (ServiceError "401"))
    (svc_responses_create svc_ok).

(** Same as [svc_ok], but the first response asks for nothing. *)
Definition svc_no_requests : Service :=
  mkService
    (svc_credential svc_ok) (svc_project_client svc_ok) (svc_openai_client svc_ok)
    (svc_agents_create_version svc_ok) (svc_agents_get svc_ok)
    (svc_conversations_create svc_ok)
    (fun t _ _ =>
       if first_round t
       then Ok (Response.mk "resp_1" [text_item] "")
       else Ok (Response.mk "resp_2" [text_item] "200")).

(** An environment that defines the four names of the specification. *)
Definition env_spec_names : gmap string string :=
  <["PROJECT_ENDPOINT" := "https://example.invalid/api/projects/p"]>
  (<["MODEL_DEPLOYMENT_NAME" := "gpt-4o"]>
  (<["MCP_BEARER_TOKEN" := "secret"]>
  (<["AGENT_NAME" := "FoundryNew-MCP-LearnAgent"]> ∅))).

(** An environment that only knows the endpoint. *)
Definition env_endpoint_only : gmap string string :=
  <["AZURE_AI_PROJECT_ENDPOINT" := "https://example.invalid/api/projects/p"]> ∅.

(** The same request twice, with a text item in between. *)
Definition duplicate_output : list Item :=
  [approval_request "custom-mcp-bearer" "r1"; text_item;
   approval_request "custom-mcp-bearer" "r1"].

(** An approval request whose identifier is the empty string. *)
Definition empty_id_output : list Item :=
  [approval_request "custom-mcp-bearer" ""].

(** A message that has neither [server_label] nor [id]. *)
Definition bare_item : Item := <["type" := VStr "message"]> ∅.

(** *** The run of mcp-custom-create.py against [svc_ok] *)

Definition acquired : Trace :=
  [EvCall DefaultAzureCredential_ (Ok (RHandle 1));
   EvCall (AIProjectClient_ "https://example.invalid/api/projects/p" 1) (Ok (RHandle 2));
   EvCall (get_openai_client_ 2) (Ok (RHandle 3))].

Definition released : Trace :=
  [EvExit OpenAIClientCM 3; EvExit ProjectClientCM 2; EvExit CredentialCM 1].

Definition custom_definition : PromptAgentDefinition :=
  mkPromptAgentDefinition "gpt-4o"
    "Always use the configured MCP tools when answering queries"
    [mkMCPTool "custom-mcp-bearer"
       "https://app-ext-eus2-mcp-profx-01.azurewebsites.net/mcp" "never"
       [("Authorization", "Bearer secret")]].

Definition custom_agent_ref : AgentReference :=
  mkAgentReference "FoundryNew-MCP-CustomAgent" "agent_reference".

Definition first_kwargs : ResponsesCreate :=
  mkResponsesCreate (Some "conv_1") (InputText "multiply 10 and 20") None
    custom_agent_ref.

Definition second_kwargs : ResponsesCreate :=
  mkResponsesCreate None (InputList [approval (VStr "r1")]) (Some "resp_1")
    custom_agent_ref.

Definition until_resubmission : Trace :=
  acquired ++
  [EvCall (agents_create_version_ 2 "FoundryNew-MCP-CustomAgent" custom_definition)
     (Ok (RAgent (Agent.mk "agent-id" "FoundryNew-MCP-CustomAgent" "1")));
   EvPrint (Line "Agent created (id: agent-id, name: FoundryNew-MCP-CustomAgent)");
   EvCall (conversations_create_ 3) (Ok (RConversation (Conversation.mk "conv_1")));
   EvPrint (Line "Created conversation (id: conv_1)");
   EvCall (responses_create_ 3 first_kwargs)
     (Ok (RResponse (Response.mk "resp_1" scenario_output "")));
   EvPrint (Line "Final input:");
   EvPrint (Repr [approval (VStr "r1")])].

Definition resubmission_reply : Result Reply :=
  Ok (RResponse (Response.mk "resp_2" [text_item] "200")).

Definition after_resubmission : Trace :=
  EvPrint (Line "Agent response: 200") :: released.

(** *** The run of mcp-microsoft-learn-existing.py against
    [svc_no_conversation] *)

Definition until_conversation : Trace :=
  acquired ++
  [EvCall (agents_get_ 2 "FoundryNew-MCP-LearnAgent")
     (Ok (RAgent (Agent.mk "agent-id" "FoundryNew-MCP-LearnAgent" "7")));
   EvPrint
     (Line "Agent retrieved (id: agent-id, name: FoundryNew-MCP-LearnAgent, version: 7)")].

(** An approval request for the custom server that lost its identifier
    attribute, and a service that answers the first prompt with it. *)
Definition broken_request : Item :=
  delete "id" (approval_request "custom-mcp-bearer" "r1").

Definition svc_broken_request : Service :=
  mkService
    (svc_credential svc_ok) (svc_project_client svc_ok) (svc_openai_client svc_ok)
    (svc_agents_create_version svc_ok) (svc_agents_get svc_ok)
    (svc_conversations_create svc_ok)
    (fun t _ _ =>
       if first_round t
       then Ok (Response.mk "resp_1" [broken_request] "")
       else Ok (Response.mk "resp_2" [text_item] "200")).

(** *** The run of mcp-custom-create.py against [svc_no_requests] *)




(** *** A [.env] file with a reference *)

(** The file [AZURE_AI_AGENT_NAME=${FOO}]: the value is whatever the
    environment holds for [FOO], the empty string when it holds nothing. *)
Definition dotenv_reference : DotEnv :=
  fun env => {[ "AZURE_AI_AGENT_NAME" := default "" (env !! "FOO") ]}.

Definition env_foo (value : string) : gmap string string :=
  <["FOO" := value]> env_endpoint_only.

End Sample.

(** ** The handshake in the specification's words *)

(** What the SDK's schema promises of an output item: it has a tag, and
    an approval request has a server label and an identifier attribute
    (whatever they hold). *)
Definition well_formed (item : Item) : bool :=
  match item !! "type" with
  | None => false
  | Some ty =>
      if py_eq_str ty "mcp_approval_request"
      then bool_decide (is_Some (item !! "server_label"))
           && bool_decide (is_Some (item !! "id"))
      else true
  end.

(** "its tag is ApprovalRequest" *)
Definition is_approval_request (item : Item) : bool :=
  match item !! "type" with
  | Some ty => py_eq_str ty "mcp_approval_request"
  | None => false
  end.

(** "its tool label equals the expected label" *)
Definition label_matches (label : string) (item : Item) : bool :=
  match item !! "server_label" with
  | Some l => py_eq_str l label
  | None => false
  end.

(** "it carries a non-empty request identifier" *)
Definition has_identifier (item : Item) : bool :=
  match item !! "id" with
  | Some v => truthy v
  | None => false
  end.

(** The identifier an item carries ([None] when it has none). *)
Definition request_identifier (item : Item) : PyVal :=
  default VNone (item !! "id").

(** The three conditions of the specification, conjoined. *)
Definition approvable (label : string) (item : Item) : bool :=
  is_approval_request item && label_matches label item && has_identifier item.

(** What one item adds to the result, according to the specification. *)
Definition contribution (label : string) (item : Item) : list McpApprovalResponse :=
  if approvable label item
  then [mkMcpApprovalResponse "mcp_approval_response" true (request_identifier item)]
  else [].

(** The same three conditions as a relation: the item is an approval
    request for [label] whose non-empty identifier is [v]. *)
Definition requests_approval (label : string) (item : Item) (v : PyVal) : Prop :=
  item !! "type" = Some (VStr "mcp_approval_request") /\
  item !! "server_label" = Some (VStr label) /\
  item !! "id" = Some v /\
  truthy v = true.

(** An approval is justified by a response when one of its output items
    requests approval for the expected label under that identifier. *)
Definition justified (label : string) (output : list Item) (a : McpApprovalResponse)
    : Prop :=
  approve a = true /\
  exists item, In item output /\ requests_approval label item (approval_request_id a).

(** ** Reading traces *)

Definition is_call (ev : Event) : bool :=
  match ev with EvCall _ _ => true | _ => false end.

Definition is_exit (ev : Event) : bool :=
  match ev with EvExit _ _ => true | _ => false end.

Definition is_conversations_create (ev : Event) : bool :=
  match ev with EvCall (conversations_create_ _) _ => true | _ => false end.

(** Every way of cutting a trace around one of its events. *)
Fixpoint splits (t : Trace) : list (Trace * Event * Trace) :=
  match t with
  | [] => []
  | ev :: t' =>
      ([], ev, t') :: map (fun '(pre, x, post) => (ev :: pre, x, post)) (splits t')
  end.

(** The claim that every prompt round names one and the same conversation. *)
Definition every_round_carries_conversation (t : Trace) : Prop :=
  exists cid, forall oc kwargs r,
    In (EvCall (responses_create_ oc kwargs) r) t -> conversation kwargs = Some cid.

(** The configuration keys as the specification lists them. *)
Definition spec_keys : list string :=
  ["PROJECT_ENDPOINT"; "MODEL_DEPLOYMENT_NAME"; "MCP_BEARER_TOKEN"; "AGENT_NAME"].

(** The calls that reach the agent service or the model: agent
    creation or lookup, conversation creation, prompt submission. *)
Definition is_session_call (ev : Event) : bool :=
  match ev with
  | EvCall (agents_create_version_ _ _ _) _ | EvCall (agents_get_ _ _) _
  | EvCall (conversations_create_ _) _ | EvCall (responses_create_ _ _) _ => true
  | _ => false
  end.

Definition is_failed_call (ev : Event) : bool :=
  match ev with EvCall _ (Raise _) => true | _ => false end.

(** How a collaborator's answer is logged. *)
Definition logged {A} (wrap : A -> Reply) (r : Result A) : Result Reply :=
  match r with Ok a => Ok (wrap a) | Raise e => Raise e end.

(** ** Reading whole runs *)

(** The managers a trace shows being entered, oldest first. *)
Definition acquisitions (t : Trace) : list (Manager * Handle) :=
  flat_map (fun ev =>
              match ev with
              | EvCall DefaultAzureCredential_ (Ok (RHandle h)) => [(CredentialCM, h)]
              | EvCall (AIProjectClient_ _ _) (Ok (RHandle h)) => [(ProjectClientCM, h)]
              | EvCall (get_openai_client_ _) (Ok (RHandle h)) => [(OpenAIClientCM, h)]
              | _ => []
              end) t.

(** The managers a trace shows being left, oldest first. *)
Definition releases (t : Trace) : list (Manager * Handle) :=
  flat_map (fun ev => match ev with EvExit m h => [(m, h)] | _ => [] end) t.

(** The manager whose handle a call goes through, or is built from. *)
Definition uses (c : Call) : option (Manager * Handle) :=
  match c with
  | DefaultAzureCredential_ => None
  | AIProjectClient_ _ credential => Some (CredentialCM, credential)
  | get_openai_client_ project_client => Some (ProjectClientCM, project_client)
  | agents_create_version_ project_client _ _ => Some (ProjectClientCM, project_client)
  | agents_get_ project_client _ => Some (ProjectClientCM, project_client)
  | conversations_create_ openai_client => Some (OpenAIClientCM, openai_client)
  | responses_create_ openai_client _ => Some (OpenAIClientCM, openai_client)
  end.

Inductive CallKind : Type :=
  | KCredential | KProjectClient | KOpenAIClient
  | KAgentCreate | KAgentGet | KConversation | KResponse.

Definition kind_of (c : Call) : CallKind :=
  match c with
  | DefaultAzureCredential_ => KCredential
  | AIProjectClient_ _ _ => KProjectClient
  | get_openai_client_ _ => KOpenAIClient
  | agents_create_version_ _ _ _ => KAgentCreate
  | agents_get_ _ _ => KAgentGet
  | conversations_create_ _ => KConversation
  | responses_create_ _ _ => KResponse
  end.

(** The kinds of the calls of a trace, in order. *)
Definition call_kinds (t : Trace) : list CallKind :=
  flat_map (fun ev => match ev with EvCall c _ => [kind_of c] | _ => [] end) t.

(** The calls of a complete run, in the order the script makes them. *)
Definition protocol (p : Program) : list CallKind :=
  [KCredential; KProjectClient; KOpenAIClient;
   match p with McpCustomCreate => KAgentCreate | McpMicrosoftLearnExisting => KAgentGet end;
   KConversation; KResponse; KResponse].

(** What the configuration [E] says about the arguments of a call:
    the endpoint of the project client, the name of the agent looked up,
    and the model and the one MCP tool of the agent created. *)
Definition configured (p : Program) (E : gmap string string) (ev : Event) : Prop :=
  match ev with
  | EvCall (AIProjectClient_ endpoint _) _ =>
      E !! "AZURE_AI_PROJECT_ENDPOINT" = Some endpoint
  | EvCall (agents_get_ _ agent_name) _ =>
      E !! "AZURE_AI_AGENT_NAME" = Some agent_name
  | EvCall (agents_create_version_ _ agent_name definition) _ =>
      agent_name = "FoundryNew-MCP-CustomAgent"
      /\ E !! "AZURE_AI_MODEL_DEPLOYMENT_NAME" = Some (model definition)
      /\ exists token,
           E !! "CUSTOM_MCP_BEARER_TOKEN" = Some token
           /\ tools definition
              = [mkMCPTool (expected_label p)
                   "https://app-ext-eus2-mcp-profx-01.azurewebsites.net/mcp" "never"
                   [("Authorization", ("Bearer " ++ token)%string)]]
  | _ => True
  end.

(** A prompt submission refers to the agent by the name some agent call
    of the trace returned. *)
Definition references_agent (t : Trace) (ev : Event) : Prop :=
  match ev with
  | EvCall (responses_create_ _ kwargs) _ =>
      exists c a,
        In (EvCall c (Ok (RAgent a))) t
        /\ extra_body kwargs = mkAgentReference (Agent.name a) "agent_reference"
  | _ => True
  end.

(** ** Reading the scan *)

(** The attribute whose absence makes an iteration of the scan raise,
    if there is one: the tag; the server label of an approval request;
    the identifier of an approval request for [label]. *)
Definition missing_attribute (label : string) (item : Item) : option string :=
  match item !! "type" with
  | None => Some "type"
  | Some ty =>
      if py_eq_str ty "mcp_approval_request" then
        match item !! "server_label" with
        | None => Some "server_label"
        | Some sl =>
            if py_eq_str sl label then
              match item !! "id" with
              | None => Some "id"
              | Some _ => None
              end
            else None
        end
      else None
  end.

(** The same, for the first item of a sequence that has one. *)
Fixpoint first_missing (label : string) (output : list Item) : option string :=
  match output with
  | [] => None
  | item :: rest =>
      match missing_attribute label item with
      | Some a => Some a
      | None => first_missing label rest
      end
  end.

(** Two items that cannot be told apart through the three attributes
    the scan mentions. *)
Definition same_scanned_attributes (a b : Item) : Prop :=
  a !! "type" = b !! "type"
  /\ a !! "server_label" = b !! "server_label"
  /\ a !! "id" = b !! "id".

(** * Properties *)

(** ** The monad *)

Lemma bind_ok {A B} (m : Py A) (k : A -> Py B) w w' a :
  m w = (w', Ok a) -> bind m k w = k a w'.
Proof. intros H. unfold bind. now rewrite H. Qed.

Lemma bind_raise {A B} (m : Py A) (k : A -> Py B) w w' e :
  m w = (w', Raise e) -> bind m k w = (w', Raise e).
Proof. intros H. unfold bind. now rewrite H. Qed.

Lemma for_app {A S} (body : A -> S -> Py S) (xs ys : list A) (s : S) (w : World) :
  for_ (xs ++ ys) body s w = bind (for_ xs body s) (for_ ys body) w.
Proof.
  revert s w. induction xs as [|x xs IH]; intros s w; simpl.
  - reflexivity.
  - unfold bind in *. destruct (body x s w) as [w1 [s1|e]]; [apply IH | reflexivity].
Qed.

(** ** The scan is a function of the response and the label alone *)

Section Scan.
Variable label : string.

(** One loop iteration leaves the world alone, and what it returns
    does not depend on the world. *)
Lemma approval_step_pure item acc w w0 :
  approval_step label item acc w = (w, snd (approval_step label item acc w0)).
Proof.
  unfold approval_step, getattr, bind, ret, raise.
  destruct (item !! "type") as [ty|]; simpl; [|reflexivity].
  destruct (py_eq_str ty _); simpl; [|reflexivity].
  destruct (item !! "server_label") as [sl|]; simpl; [|reflexivity].
  destruct (py_eq_str sl label); simpl.
  - destruct (item !! "id") as [v|]; simpl; [|reflexivity].
    destruct (truthy v); reflexivity.
  - reflexivity.
Qed.

Lemma for_approval_step_pure output acc w w0 :
  for_ output (approval_step label) acc w
  = (w, snd (for_ output (approval_step label) acc w0)).
Proof.
  revert acc. induction output as [|item output IH]; intros acc; simpl.
  - reflexivity.
  - unfold bind. rewrite (approval_step_pure item acc w w0).
    destruct (approval_step label item acc w0) as [w1 [acc'|e]] eqn:Hstep; simpl.
    + rewrite (approval_step_pure item acc w0 w0) in Hstep.
      injection Hstep as <- _. apply IH.
    + reflexivity.
Qed.

(** On a well-formed item the iteration appends the item's contribution. *)
Lemma approval_step_contribution item acc w :
  well_formed item = true ->
  approval_step label item acc w = (w, Ok (acc ++ contribution label item)).
Proof.
  unfold well_formed, contribution, approvable, is_approval_request, label_matches,
    has_identifier, request_identifier, approval_step, approval, getattr, bind, ret, raise.
  destruct (item !! "type") as [ty|]; simpl; [|discriminate].
  destruct (py_eq_str ty _); simpl; [|now rewrite app_nil_r].
  destruct (item !! "server_label") as [sl|]; simpl; [|intros; discriminate].
  destruct (item !! "id") as [v|]; simpl; [intros _|intros; discriminate].
  destruct (py_eq_str sl label); simpl; [|now rewrite app_nil_r].
  destruct (truthy v); simpl; [reflexivity | now rewrite app_nil_r].
Qed.

Lemma for_approval_step_flat_map output acc w :
  Forall (fun item => well_formed item = true) output ->
  for_ output (approval_step label) acc w
  = (w, Ok (acc ++ flat_map (contribution label) output)).
Proof.
  intros Hwf. revert acc.
  induction Hwf as [|item output Hitem _ IH]; intros acc; simpl.
  - now rewrite app_nil_r.
  - rewrite (bind_ok _ _ _ _ _ (approval_step_contribution item acc w Hitem)).
    rewrite IH. now rewrite <- app_assoc.
Qed.

Lemma collect_approvals_flat_map output w :
  Forall (fun item => well_formed item = true) output ->
  collect_approvals label output w = (w, Ok (flat_map (contribution label) output)).
Proof. intros Hwf. apply (for_approval_step_flat_map output [] w Hwf). Qed.

Lemma flat_map_contribution output :
  flat_map (contribution label) output
  = map (fun item => approval (request_identifier item))
      (List.filter (approvable label) output).
Proof.
  induction output as [|item output IH]; simpl; [reflexivity|].
  unfold contribution at 1. destruct (approvable label item); simpl; now rewrite IH.
Qed.

(** An item that is not an approval request leaves the loop state alone,
    whatever else it has or lacks. *)
Lemma approval_step_other_tag item ty acc w :
  item !! "type" = Some ty -> ty <> VStr "mcp_approval_request" ->
  approval_step label item acc w = (w, Ok acc).
Proof.
  intros Hty Hne. unfold approval_step, getattr, bind, ret. rewrite Hty. simpl.
  destruct ty as [| | |s|]; simpl; try reflexivity.
  destruct (String.eqb_spec s "mcp_approval_request") as [->|_]; [congruence|reflexivity].
Qed.

(** Whatever the scan returns was asked for by the response. *)
Lemma for_approval_step_justified output :
  forall done_ acc w w' res,
    Forall (justified label (done_ ++ output)) acc ->
    for_ output (approval_step label) acc w = (w', Ok res) ->
    Forall (justified label (done_ ++ output)) res.
Proof.
  induction output as [|item output IH]; intros done_ acc w w' res Hacc Hrun.
  - simpl in Hrun. unfold ret in Hrun. congruence.
  - simpl in Hrun. unfold bind in Hrun.
    destruct (approval_step label item acc w) as [w1 [acc1|e]] eqn:Hstep; [|discriminate].
    replace (done_ ++ item :: output) with ((done_ ++ [item]) ++ output) in *
      by now rewrite <- app_assoc.
    apply (IH (done_ ++ [item]) acc1 w1 w' res); [|exact Hrun].
    revert Hstep. unfold approval_step, getattr, bind, ret, raise.
    destruct (item !! "type") as [ty|] eqn:Hty; simpl; [|discriminate].
    destruct ty as [| | |ts|]; simpl; try (intros [= <- <-]; exact Hacc).
    destruct (String.eqb_spec ts "mcp_approval_request") as [->|_];
      [|intros [= <- <-]; exact Hacc].
    destruct (item !! "server_label") as [sl|] eqn:Hsl; simpl; [|discriminate].
    destruct sl as [| | |ls|]; simpl; try (intros [= <- <-]; exact Hacc).
    destruct (String.eqb_spec ls label) as [->|_]; simpl;
      [|intros [= <- <-]; exact Hacc].
    destruct (item !! "id") as [v|] eqn:Hid; simpl; [|discriminate].
    destruct (truthy v) eqn:Hv; intros [= <- <-]; [|exact Hacc].
    apply Forall_app. split; [exact Hacc|].
    constructor; [|constructor].
    split; [reflexivity|]. exists item. simpl. split.
    + apply in_or_app. left. apply in_or_app. right. now left.
    + repeat split; assumption.
Qed.

Lemma collect_approvals_justified output w w' res :
  collect_approvals label output w = (w', Ok res) ->
  Forall (justified label output) res.
Proof.
  intros Hrun.
  apply (for_approval_step_justified output [] [] w w' res); [constructor | exact Hrun].
Qed.
End Scan.

(** ** The scripts' own loops *)

Lemma custom_create_scan output :
  CustomCreate.approval_scan output = collect_approvals "custom-mcp-bearer" output.
Proof. reflexivity. Qed.

Lemma learn_existing_scan output :
  LearnExisting.approval_scan output = collect_approvals "microsoft-learn-mcp" output.
Proof. reflexivity. Qed.

Lemma custom_create_scan_run output w :
  CustomCreate.approval_scan output w
  = (w, snd (collect_approvals "custom-mcp-bearer" output (start ∅ no_dotenv))).
Proof. rewrite custom_create_scan. apply for_approval_step_pure. Qed.

Lemma learn_existing_scan_run output w :
  LearnExisting.approval_scan output w
  = (w, snd (collect_approvals "microsoft-learn-mcp" output (start ∅ no_dotenv))).
Proof. rewrite learn_existing_scan. apply for_approval_step_pure. Qed.

Lemma collect_approvals_result_justified label output w res :
  snd (collect_approvals label output w) = Ok res ->
  Forall (justified label output) res.
Proof.
  destruct (collect_approvals label output w) as [w' r] eqn:Hrun. simpl.
  intros ->. exact (collect_approvals_justified label output w w' res Hrun).
Qed.

(** ** The specification's three conditions *)

Lemma py_eq_str_true v lit : py_eq_str v lit = true <-> v = VStr lit.
Proof.
  destruct v as [| | |s|]; simpl; try (split; [discriminate | congruence]).
  rewrite String.eqb_eq. split; congruence.
Qed.





Lemma count_map_filter {A B} (g : A -> B) (P : B -> bool) (Q : A -> bool) (l : list A) :
  length (List.filter P (map g (List.filter Q l)))
  = length (List.filter (fun x => Q x && P (g x)) l).
Proof.
  induction l as [|x l IH]; simpl; [reflexivity|].
  destruct (Q x); simpl; [|exact IH].
  destruct (P (g x)); simpl; now rewrite IH.
Qed.

(** ** The approval scan *)




(** C2. The scan is a stable filter without deduplication: the approvals
    are the matching items' identifiers in the order of the output
    sequence, and for any property of identifiers there are as many
    approvals with it as there are matching items with it. *)
Theorem collect_approvals_stable (label : string) (output : list Item) (w : World) :
  Forall (fun item => well_formed item = true) output ->
  exists input_list,
    collect_approvals label output w = (w, Ok input_list)
    /\ input_list
       = map (fun item => approval (request_identifier item))
           (List.filter (approvable label) output)
    /\ forall P : PyVal -> bool,
         length (List.filter (fun a => P (approval_request_id a)) input_list)
         = length (List.filter
                     (fun item => approvable label item && P (request_identifier item))
                     output).
Proof.
  intros Hwf. eexists. split; [|split].
  - rewrite (collect_approvals_flat_map label output w Hwf).
    rewrite flat_map_contribution. reflexivity.
  - reflexivity.
  - intros P.
    apply (count_map_filter (fun item => approval (request_identifier item))
             (fun a => P (approval_request_id a))).
Qed.

Lemma collect_approvals_stable_witness :
  Forall (fun item => well_formed item = true) Sample.duplicate_output
  /\ exists input_list,
       collect_approvals "custom-mcp-bearer" Sample.duplicate_output (start ∅ no_dotenv)
       = (start ∅ no_dotenv, Ok input_list)
       /\ input_list
          = map (fun item => approval (request_identifier item))
              (List.filter (approvable "custom-mcp-bearer") Sample.duplicate_output)
       /\ forall P : PyVal -> bool,
            length (List.filter (fun a => P (approval_request_id a)) input_list)
            = length (List.filter
                        (fun item => approvable "custom-mcp-bearer" item
                                     && P (request_identifier item))
                        Sample.duplicate_output).
Proof.
  assert (Hwf : Forall (fun item => well_formed item = true) Sample.duplicate_output)
    by (repeat constructor).
  split; [exact Hwf|].
  exact (collect_approvals_stable "custom-mcp-bearer" Sample.duplicate_output
           (start ∅ no_dotenv) Hwf).
Defined.

(** C5. The scan is a pure, deterministic transform: it leaves the world
    (environment, trace) as it found it, running it again on the world it
    left gives the same result, and the result is the same in any world. *)
Theorem collect_approvals_pure (label : string) (output : list Item) (w : World) :
  fst (collect_approvals label output w) = w
  /\ collect_approvals label output (fst (collect_approvals label output w))
     = collect_approvals label output w
  /\ forall w', snd (collect_approvals label output w')
                = snd (collect_approvals label output w).
Proof.
  assert (H : forall w1 w2, collect_approvals label output w1
                            = (w1, snd (collect_approvals label output w2)))
    by (intros w1 w2; apply for_approval_step_pure).
  split; [|split].
  - now rewrite (H w w).
  - now rewrite (H w w).
  - intros w'. now rewrite (H w' w).
Qed.

(** C9. The loops of the two scripts are one function of the expected
    server label: they agree at every label, so the loop of
    mcp-custom-create.py run with "microsoft-learn-mcp" is the scan of
    mcp-microsoft-learn-existing.py, and the other way round with
    "custom-mcp-bearer". *)
Theorem approval_scans_agree (output : list Item) (w : World) :
  (forall label,
     for_ output (CustomCreate.loop_body label) [] w
     = for_ output (LearnExisting.loop_body label) [] w)
  /\ for_ output (CustomCreate.loop_body "microsoft-learn-mcp") [] w
     = LearnExisting.approval_scan output w
  /\ for_ output (LearnExisting.loop_body "custom-mcp-bearer") [] w
     = CustomCreate.approval_scan output w.
Proof. repeat split. Qed.

(** C10. An item whose tag is not "mcp_approval_request" is stepped over
    without a look at its server label or identifier: the iteration
    succeeds and leaves the list alone whatever those attributes hold or
    whether they exist, so the scan behaves as if the item were absent. *)
Theorem other_tags_skipped (label : string) (pre post : list Item) (item : Item)
    (ty : PyVal) (w : World) :
  item !! "type" = Some ty ->
  ty <> VStr "mcp_approval_request" ->
  (forall input_list, approval_step label item input_list w = (w, Ok input_list))
  /\ collect_approvals label (pre ++ item :: post) w
     = collect_approvals label (pre ++ post) w.
Proof.
  intros Hty Hne. split.
  - intros input_list. exact (approval_step_other_tag label item ty input_list w Hty Hne).
  - unfold collect_approvals. rewrite !for_app. unfold bind.
    destruct (for_ pre (approval_step label) [] w) as [w1 [acc|e]]; [|reflexivity].
    simpl. unfold bind.
    now rewrite (approval_step_other_tag label item ty acc w1 Hty Hne).
Qed.

Lemma other_tags_skipped_witness :
  Sample.bare_item !! "type" = Some (VStr "message")
  /\ VStr "message" <> VStr "mcp_approval_request"
  /\ collect_approvals "custom-mcp-bearer"
       ([Sample.approval_request "custom-mcp-bearer" "r1"] ++ Sample.bare_item :: [])
       (start ∅ no_dotenv)
     = collect_approvals "custom-mcp-bearer"
         ([Sample.approval_request "custom-mcp-bearer" "r1"] ++ []) (start ∅ no_dotenv).
Proof.
  assert (Hty : Sample.bare_item !! "type" = Some (VStr "message")) by reflexivity.
  assert (Hne : VStr "message" <> VStr "mcp_approval_request") by discriminate.
  split; [exact Hty|]. split; [exact Hne|].
  exact (proj2 (other_tags_skipped "custom-mcp-bearer"
                  [Sample.approval_request "custom-mcp-bearer" "r1"] []
                  Sample.bare_item (VStr "message") (start ∅ no_dotenv) Hty Hne)).
Defined.

(** The scenarios of the specification. *)

Example scenario_mixed :
  snd (collect_approvals "custom-mcp-bearer" Sample.scenario_output (start ∅ no_dotenv))
  = Ok [approval (VStr "r1")].
Proof. reflexivity. Qed.

Example scenario_empty_identifier :
  snd (collect_approvals "custom-mcp-bearer" Sample.empty_id_output (start ∅ no_dotenv))
  = Ok [].
Proof. reflexivity. Qed.

Example scenario_duplicate_identifier :
  snd (collect_approvals "custom-mcp-bearer" Sample.duplicate_output (start ∅ no_dotenv))
  = Ok [approval (VStr "r1"); approval (VStr "r1")].
Proof. reflexivity. Qed.

(** Outside the schema the scan can raise: an approval request for the
    expected label that has no [id] attribute at all. *)
Example scan_missing_attribute :
  snd (collect_approvals "custom-mcp-bearer"
         [delete "id" (Sample.approval_request "custom-mcp-bearer" "r1")] (start ∅ no_dotenv))
  = Raise (AttributeError "id").
Proof. reflexivity. Qed.

(** ** Running the scripts symbolically *)

Lemma splits_complete (t pre post : Trace) (x : Event) :
  t = pre ++ x :: post -> In (pre, x, post) (splits t).
Proof.
  intros ->. induction pre as [|ev pre IH]; simpl.
  - now left.
  - right. apply (in_map (fun '(pre, x, post) => (ev :: pre, x, post)) _ _ IH).
Qed.

(** One step of a run: the scan is replaced by its world-independent
    result, any other pending decision (an environment lookup, a
    collaborator's answer) is split into its cases. *)
Ltac step :=
  match goal with
  | |- context [CustomCreate.approval_scan ?o ?w] => rewrite (custom_create_scan_run o w)
  | |- context [LearnExisting.approval_scan ?o ?w] => rewrite (learn_existing_scan_run o w)
  | |- context [match ?x with _ => _ end] =>
      match x with
      | context [match _ with _ => _ end] => fail 1
      | _ => destruct x eqn:?
      end
  end.

Ltac unfold_script :=
  unfold outcome, trace_of, result_of, run, CustomCreate.script, CustomCreate.session,
    LearnExisting.script, LearnExisting.session, start;
  unfold with_, bind, load_dotenv, os_environ, DefaultAzureCredential, AIProjectClient,
    get_openai_client, agents_create_version, agents_get, conversations_create,
    resubmit, responses_create, call, print, emit;
  cbn [environ dotenv_file trace].

Ltac run_paths_using t :=
  repeat (first [progress t | step]; cbn [environ dotenv_file trace fst snd app]).

Ltac run_script := unfold_script; run_paths_using idtac.

(** All the ways a membership or a cut of an explicit trace can hold. *)
Ltac cases_of H :=
  cbn [splits map In] in H;
  repeat (destruct H as [H|H]; [try discriminate H|]); try contradiction.

Ltac find_event := cbn [In]; repeat first [left; reflexivity | right].

(** ** Sample runs *)

Example custom_create_run :
  outcome McpCustomCreate Sample.svc_ok Sample.env_ok no_dotenv
  = (Sample.until_resubmission
     ++ EvCall (responses_create_ 3 Sample.second_kwargs) Sample.resubmission_reply
     :: Sample.after_resubmission,
     Ok tt).
Proof. vm_compute. reflexivity. Qed.

Example learn_existing_no_conversation :
  outcome McpMicrosoftLearnExisting Sample.svc_no_conversation Sample.env_ok no_dotenv
  = (Sample.until_conversation
     ++ EvCall (conversations_create_ 3) (Raise (ServiceError "401"))
     :: Sample.released,
     Raise (ServiceError "401")).
Proof. vm_compute. reflexivity. Qed.

(** A rejected resubmission ends the run in the service's exception. *)
Example custom_create_rejected :
  result_of McpCustomCreate Sample.svc_reject_second Sample.env_ok no_dotenv
  = Raise (ServiceError "unknown response id").
Proof. vm_compute. reflexivity. Qed.

(** A reference in the [.env] file is resolved against the process
    environment before the script reads the variable: the agent looked
    up is the one the environment's [FOO] names. *)
Example learn_existing_reference :
  In (EvCall (agents_get_ 2 "bar")
        (Ok (RAgent (Agent.mk "agent-id" "bar" "7"))))
    (trace_of McpMicrosoftLearnExisting Sample.svc_ok (Sample.env_foo "bar")
       Sample.dotenv_reference)
  /\ In (EvCall (agents_get_ 2 "baz")
           (Ok (RAgent (Agent.mk "agent-id" "baz" "7"))))
       (trace_of McpMicrosoftLearnExisting Sample.svc_ok (Sample.env_foo "baz")
          Sample.dotenv_reference).
Proof. split; vm_compute; find_event. Qed.

(** A first response without approval requests is still answered, with
    an empty list. *)
Example resubmission_without_approvals :
  exists before after,
    trace_of McpCustomCreate Sample.svc_no_requests Sample.env_ok no_dotenv
    = before
      ++ EvCall (responses_create_ 3
                   (mkResponsesCreate None (InputList []) (Some "resp_1")
                      Sample.custom_agent_ref))
           Sample.resubmission_reply
      :: after.
Proof.
  eexists (_ :: _ :: _ :: _ :: _ :: _ :: _ :: _ :: _ :: _ :: []), _.
  vm_compute. reflexivity.
Qed.

(** ** The session *)

(** C3. Whenever a program submits a list of approvals, the last
    collaborator call before it was a prompt submission that returned a
    response, the submission is chained to that response, and every
    approval in the list answers an approval request of that response's
    output for the program's expected server label. *)
Theorem approvals_justified (p : Program) (svc : Service) (env : gmap string string) (dotenv : DotEnv)
    (pre post : Trace) (oc : Handle) (kwargs : ResponsesCreate) (reply : Result Reply)
    (input_list : list McpApprovalResponse) :
  trace_of p svc env dotenv
  = pre ++ EvCall (responses_create_ oc kwargs) reply :: post ->
  input kwargs = InputList input_list ->
  exists before first response between,
    pre = before ++ EvCall (responses_create_ oc first) (Ok (RResponse response)) :: between
    /\ Forall (fun ev => is_call ev = false) between
    /\ previous_response_id kwargs = Some (Response.id response)
    /\ Forall (justified (expected_label p) (Response.output response)) input_list.
Proof.
  intros H Hin. apply splits_complete in H. revert H.
  destruct p; run_script; intros H; cases_of H.
  all: injection H as <- <- <- <- <-; try discriminate Hin.
  all: injection Hin as <-.
  all: match goal with
       | Hs : snd (collect_approvals _ _ _) = Ok _ |- _ =>
           apply collect_approvals_result_justified in Hs
       end.
  all: eexists (_ :: _ :: _ :: _ :: _ :: _ :: _ :: []), _, _, _; split; [reflexivity|].
  all: repeat split; try assumption; repeat constructor.
Qed.

Lemma approvals_justified_witness :
  trace_of McpCustomCreate Sample.svc_ok Sample.env_ok no_dotenv
  = Sample.until_resubmission
    ++ EvCall (responses_create_ 3 Sample.second_kwargs) Sample.resubmission_reply
    :: Sample.after_resubmission
  /\ input Sample.second_kwargs = InputList [approval (VStr "r1")]
  /\ exists before first response between,
       Sample.until_resubmission
       = before ++ EvCall (responses_create_ 3 first) (Ok (RResponse response)) :: between
       /\ Forall (fun ev => is_call ev = false) between
       /\ previous_response_id Sample.second_kwargs = Some (Response.id response)
       /\ Forall (justified "custom-mcp-bearer" (Response.output response))
            [approval (VStr "r1")].
Proof.
  assert (H : trace_of McpCustomCreate Sample.svc_ok Sample.env_ok no_dotenv
              = Sample.until_resubmission
                ++ EvCall (responses_create_ 3 Sample.second_kwargs)
                     Sample.resubmission_reply
                :: Sample.after_resubmission)
    by (vm_compute; reflexivity).
  split; [exact H|]. split; [reflexivity|].
  exact (approvals_justified McpCustomCreate Sample.svc_ok Sample.env_ok no_dotenv
           Sample.until_resubmission Sample.after_resubmission 3 Sample.second_kwargs
           Sample.resubmission_reply [approval (VStr "r1")] H eq_refl).
Defined.

(** The resubmission taken alone is one prompt-submission call: the
    trace grows by that one call, which carries the list as its input
    and the prior response's identifier, and the call's outcome is the
    outcome of the resubmission. *)
Lemma resubmit_one_call (svc : Service) (openai_client : Handle)
    (input_list : list McpApprovalResponse) (prior_response_id agent_name : string)
    (w : World) :
  let kwargs :=
    mkResponsesCreate None (InputList input_list) (Some prior_response_id)
      (mkAgentReference agent_name "agent_reference") in
  let r := resubmit svc openai_client input_list prior_response_id agent_name w in
  trace (fst r)
  = trace w ++ [EvCall (responses_create_ openai_client kwargs) (logged RResponse (snd r))]
  /\ snd r = svc_responses_create svc (trace w) openai_client kwargs.
Proof.
  intros kwargs r. subst kwargs r. unfold resubmit, responses_create, call.
  destruct (svc_responses_create _ _ _ _); split; reflexivity.
Qed.



(** C6, as the code has it. Each program reads its own keys and no
    others: a run depends on the environment as [load_dotenv()] leaves
    it only through [required_keys]. When one of them is absent the run
    makes no call to the agent, conversation or response service and
    ends either in the [KeyError] of an absent required key or in the
    failure of one of the acquisitions. When the absent key is one of
    [startup_keys] nothing at all has happened before the [KeyError].
    When instead all of [startup_keys] are there and no acquisition
    failed, the credential and both clients have been acquired, and
    nothing else called, before the [KeyError] of an absent key of
    [session_keys]. *)
Theorem config_keys_read (p : Program) (svc : Service) (env : gmap string string)
    (dotenv : DotEnv) :
  (forall env' dotenv',
     (forall k, In k (required_keys p) ->
                (env' ∪ dotenv' env') !! k = (env ∪ dotenv env) !! k) ->
     outcome p svc env' dotenv' = outcome p svc env dotenv)
  /\ (forall k,
        In k (required_keys p) -> (env ∪ dotenv env) !! k = None ->
        Forall (fun ev => is_session_call ev = false) (trace_of p svc env dotenv)
        /\ ((exists k', In k' (required_keys p) /\ (env ∪ dotenv env) !! k' = None
                        /\ result_of p svc env dotenv = Raise (KeyError k'))
            \/ (exists c e, In (EvCall c (Raise e)) (trace_of p svc env dotenv)
                            /\ result_of p svc env dotenv = Raise e))
        /\ (In k (startup_keys p) ->
            trace_of p svc env dotenv = []
            /\ exists k', In k' (startup_keys p)
                          /\ result_of p svc env dotenv = Raise (KeyError k'))
        /\ (existsb is_failed_call (trace_of p svc env dotenv) = false ->
            (forall k0, In k0 (startup_keys p) -> is_Some ((env ∪ dotenv env) !! k0)) ->
            call_kinds (trace_of p svc env dotenv)
            = [KCredential; KProjectClient; KOpenAIClient]
            /\ exists k', In k' (session_keys p)
                          /\ (env ∪ dotenv env) !! k' = None
                          /\ result_of p svc env dotenv = Raise (KeyError k'))).
Proof.
  split.
  - intros env' dotenv' Hagree.
    destruct p; unfold required_keys, startup_keys, session_keys, app in Hagree.
    + pose proof (Hagree _ (or_introl eq_refl)) as H1.
      pose proof (Hagree _ (or_intror (or_introl eq_refl))) as H2.
      pose proof (Hagree _ (or_intror (or_intror (or_introl eq_refl)))) as H3.
      unfold_script. run_paths_using ltac:(rewrite ?H1, ?H2, ?H3); reflexivity.
    + pose proof (Hagree _ (or_introl eq_refl)) as H1.
      pose proof (Hagree _ (or_intror (or_introl eq_refl))) as H2.
      unfold_script. run_paths_using ltac:(rewrite ?H1, ?H2); reflexivity.
  - intros k Hk Hmiss.
    destruct p; cbn [required_keys startup_keys session_keys app In] in *.
    all: repeat (destruct Hk as [<-|Hk]); try contradiction.
    all: unfold_script; run_paths_using ltac:(rewrite ?Hmiss).
    all: try congruence.
    all: split; [repeat constructor|split; [|split]].
    all: try (intros Hf Hs; cbn in Hf; try discriminate Hf;
              first [ exfalso;
                      first [ destruct (Hs _ (or_introl eq_refl)) as [? Hx]; congruence
                            | destruct (Hs _ (or_intror (or_introl eq_refl))) as [? Hx];
                              congruence ]
                    | split; [reflexivity|];
                      eexists; split; [|split; [eassumption|reflexivity]];
                      solve [find_event] ]).
    all: try (intros Hs; repeat (destruct Hs as [Hs|Hs]; try discriminate Hs);
              try contradiction;
              (split; [reflexivity|eexists; split; [|reflexivity]; find_event])).
    all: first [ left; eexists; split; [|split; [eassumption|reflexivity]]; find_event
               | right; eexists _, _; split; [find_event|reflexivity] ].
Qed.

(** C6, as the specification states it, fails twice over. With all four
    names of the specification defined, mcp-custom-create.py still stops
    on a key it does not find; and with a key it needs absent, it has
    acquired the credential and both clients before it stops. *)
Lemma config_keys_counterexample :
  (forall k, In k spec_keys -> is_Some (Sample.env_spec_names !! k))
  /\ outcome McpCustomCreate Sample.svc_ok Sample.env_spec_names no_dotenv
     = ([], Raise (KeyError "AZURE_AI_PROJECT_ENDPOINT"))
  /\ Sample.env_endpoint_only !! "CUSTOM_MCP_BEARER_TOKEN" = None
  /\ outcome McpCustomCreate Sample.svc_ok Sample.env_endpoint_only no_dotenv
     = (Sample.acquired ++ Sample.released,
        Raise (KeyError "CUSTOM_MCP_BEARER_TOKEN")).
Proof.
  split; [|split; [|split]].
  - intros k Hk. cbn [spec_keys In] in Hk.
    repeat (destruct Hk as [<-|Hk]); try contradiction; vm_compute; eauto.
  - vm_compute. reflexivity.
  - reflexivity.
  - vm_compute. reflexivity.
Qed.

(** C7, as the code has it. In a run that submits a prompt, exactly one
    conversation was created. The first submission names it and no prior
    response; the resubmission names no conversation at all: it is
    chained through [previous_response_id] to the response of a
    submission that did name the conversation. *)
Theorem conversation_attachment (p : Program) (svc : Service)
    (env : gmap string string) (dotenv : DotEnv) (oc : Handle) (kwargs : ResponsesCreate)
    (reply : Result Reply) :
  In (EvCall (responses_create_ oc kwargs) reply) (trace_of p svc env dotenv) ->
  length (List.filter is_conversations_create (trace_of p svc env dotenv)) = 1
  /\ exists conv,
       In (EvCall (conversations_create_ oc) (Ok (RConversation conv)))
         (trace_of p svc env dotenv)
       /\ ((exists prompt,
              conversation kwargs = Some (Conversation.id conv)
              /\ input kwargs = InputText prompt
              /\ previous_response_id kwargs = None)
           \/ (exists first response input_list,
                 In (EvCall (responses_create_ oc first) (Ok (RResponse response)))
                   (trace_of p svc env dotenv)
                 /\ conversation first = Some (Conversation.id conv)
                 /\ conversation kwargs = None
                 /\ input kwargs = InputList input_list
                 /\ previous_response_id kwargs = Some (Response.id response))).
Proof.
  destruct p; run_script; intros H; cases_of H.
  all: injection H as <- <- <-.
  all: split; [reflexivity|].
  all: eexists; split; [find_event|].
  all: first [ left; eexists; repeat split; reflexivity
             | right; eexists _, _, _; split; [find_event|]; repeat split; reflexivity ].
Qed.

Lemma conversation_attachment_witness :
  In (EvCall (responses_create_ 3 Sample.second_kwargs) Sample.resubmission_reply)
    (trace_of McpCustomCreate Sample.svc_ok Sample.env_ok no_dotenv)
  /\ length (List.filter is_conversations_create
               (trace_of McpCustomCreate Sample.svc_ok Sample.env_ok no_dotenv)) = 1
  /\ conversation Sample.second_kwargs = None
  /\ previous_response_id Sample.second_kwargs = Some "resp_1".
Proof.
  assert (H : In (EvCall (responses_create_ 3 Sample.second_kwargs)
                    Sample.resubmission_reply)
                (trace_of McpCustomCreate Sample.svc_ok Sample.env_ok no_dotenv))
    by (vm_compute; find_event).
  split; [exact H|].
  split; [|split; reflexivity].
  exact (proj1 (conversation_attachment McpCustomCreate Sample.svc_ok Sample.env_ok no_dotenv
                  3 Sample.second_kwargs Sample.resubmission_reply H)).
Defined.

(** C7, as the specification states it, fails: in the run of
    mcp-custom-create.py against the sample service no conversation
    identifier is common to the two prompt submissions, because the
    second carries none. *)
Lemma conversation_counterexample :
  ~ every_round_carries_conversation
      (trace_of McpCustomCreate Sample.svc_ok Sample.env_ok no_dotenv).
Proof.
  intros [cid H].
  assert (Hin : In (EvCall (responses_create_ 3 Sample.second_kwargs)
                      Sample.resubmission_reply)
                  (trace_of McpCustomCreate Sample.svc_ok Sample.env_ok no_dotenv))
    by (vm_compute; find_event).
  specialize (H 3 Sample.second_kwargs Sample.resubmission_reply Hin).
  discriminate H.
Qed.

(** C8. When a collaborator call fails, the run ends in that very
    exception, no call of any kind follows the failed one (only the
    [with] statement's exits do), and no call before it had failed. *)
Theorem failures_propagate (p : Program) (svc : Service) (env : gmap string string) (dotenv : DotEnv)
    (pre post : Trace) (c : Call) (e : Exn) :
  trace_of p svc env dotenv = pre ++ EvCall c (Raise e) :: post ->
  result_of p svc env dotenv = Raise e
  /\ Forall (fun ev => is_call ev = false) post
  /\ Forall (fun ev => is_exit ev = true) post
  /\ Forall (fun ev => is_failed_call ev = false) pre.
Proof.
  intros H. apply splits_complete in H. revert H.
  destruct p; run_script; intros H; cases_of H.
  all: injection H as <- <- <- <-; repeat split; repeat constructor.
Qed.

Lemma failures_propagate_witness :
  trace_of McpMicrosoftLearnExisting Sample.svc_no_conversation Sample.env_ok no_dotenv
  = Sample.until_conversation
    ++ EvCall (conversations_create_ 3) (Raise (ServiceError "401")) :: Sample.released
  /\ result_of McpMicrosoftLearnExisting Sample.svc_no_conversation Sample.env_ok no_dotenv
     = Raise (ServiceError "401")
  /\ Forall (fun ev => is_call ev = false) Sample.released
  /\ Forall (fun ev => is_exit ev = true) Sample.released
  /\ Forall (fun ev => is_failed_call ev = false) Sample.until_conversation.
Proof.
  assert (H : trace_of McpMicrosoftLearnExisting Sample.svc_no_conversation
                Sample.env_ok no_dotenv
              = Sample.until_conversation
                ++ EvCall (conversations_create_ 3) (Raise (ServiceError "401"))
                :: Sample.released)
    by (vm_compute; reflexivity).
  split; [exact H|].
  exact (failures_propagate McpMicrosoftLearnExisting Sample.svc_no_conversation
           Sample.env_ok no_dotenv Sample.until_conversation Sample.released
           (conversations_create_ 3) (ServiceError "401") H).
Defined.

(** * Further properties *)

(** ** The scan on arbitrary objects *)

Lemma approval_step_closed_form (label : string) (item : Item)
    (acc : list McpApprovalResponse) (w : World) :
  approval_step label item acc w
  = (w, match missing_attribute label item with
        | Some a => Raise (AttributeError a)
        | None => Ok (acc ++ contribution label item)
        end).
Proof.
  unfold approval_step, missing_attribute, contribution, approvable, is_approval_request,
    label_matches, has_identifier, request_identifier, approval, getattr, bind, ret, raise.
  destruct (item !! "type") as [ty|]; simpl; [|reflexivity].
  destruct (py_eq_str ty _); simpl; [|now rewrite app_nil_r].
  destruct (item !! "server_label") as [sl|]; simpl; [|reflexivity].
  destruct (py_eq_str sl label); simpl; [|now rewrite app_nil_r].
  destruct (item !! "id") as [v|]; simpl; [|reflexivity].
  destruct (truthy v); simpl; [reflexivity | now rewrite app_nil_r].
Qed.

Lemma for_approval_step_closed_form (label : string) (output : list Item)
    (acc : list McpApprovalResponse) (w : World) :
  for_ output (approval_step label) acc w
  = (w, match first_missing label output with
        | Some a => Raise (AttributeError a)
        | None => Ok (acc ++ flat_map (contribution label) output)
        end).
Proof.
  revert acc. induction output as [|item output IH]; intros acc; simpl.
  - now rewrite app_nil_r.
  - unfold bind. rewrite approval_step_closed_form.
    destruct (missing_attribute label item); [reflexivity|].
    rewrite IH. destruct (first_missing label output); [reflexivity|].
    now rewrite <- app_assoc.
Qed.

Lemma missing_attribute_name (label : string) (item : Item) (a : string) :
  missing_attribute label item = Some a -> In a ["type"; "server_label"; "id"].
Proof.
  unfold missing_attribute.
  destruct (item !! "type") as [ty|]; [|intros [= <-]; simpl; tauto].
  destruct (py_eq_str ty _); [|discriminate].
  destruct (item !! "server_label") as [sl|]; [|intros [= <-]; simpl; tauto].
  destruct (py_eq_str sl label); [|discriminate].
  destruct (item !! "id"); [discriminate|intros [= <-]; simpl; tauto].
Qed.

Lemma first_missing_name (label : string) (output : list Item) (a : string) :
  first_missing label output = Some a -> In a ["type"; "server_label"; "id"].
Proof.
  induction output as [|item output IH]; simpl; [discriminate|].
  destruct (missing_attribute label item) eqn:Hm; [|exact IH].
  intros [= <-]. exact (missing_attribute_name label item _ Hm).
Qed.

Lemma first_missing_app (label : string) (xs ys : list Item) :
  first_missing label (xs ++ ys)
  = match first_missing label xs with
    | Some a => Some a
    | None => first_missing label ys
    end.
Proof.
  induction xs as [|x xs IH]; simpl; [reflexivity|].
  destruct (missing_attribute label x); [reflexivity | exact IH].
Qed.

Lemma same_scanned_step (label : string) (a b : Item) :
  same_scanned_attributes a b ->
  missing_attribute label a = missing_attribute label b
  /\ contribution label a = contribution label b.
Proof.
  intros (Hty & Hsl & Hid).
  unfold missing_attribute, contribution, approvable, is_approval_request, label_matches,
    has_identifier, request_identifier.
  rewrite Hty, Hsl, Hid. split; reflexivity.
Qed.

(** X1. The scan in closed form, for any sequence of objects: it raises
    at the first item that lacks an attribute the loop reads there,
    with the [AttributeError] of that attribute, which can only be
    [type], [server_label] or [id], and the approvals gathered so far
    are lost; when no item lacks one, it returns every item's
    contribution in order. *)
Theorem collect_approvals_closed_form (label : string) (output : list Item) (w : World) :
  collect_approvals label output w
  = (w, match first_missing label output with
        | Some a => Raise (AttributeError a)
        | None => Ok (flat_map (contribution label) output)
        end)
  /\ forall a, first_missing label output = Some a ->
               In a ["type"; "server_label"; "id"].
Proof.
  split.
  - exact (for_approval_step_closed_form label output [] w).
  - intros a. apply first_missing_name.
Qed.

(** X2. Scanning a concatenation is scanning the parts: an exception of
    the first part wins, otherwise an exception of the second part,
    otherwise the two lists of approvals are appended. *)
Theorem collect_approvals_app (label : string) (xs ys : list Item) (w : World) :
  snd (collect_approvals label (xs ++ ys) w)
  = match snd (collect_approvals label xs w) with
    | Raise e => Raise e
    | Ok approvals_xs =>
        match snd (collect_approvals label ys w) with
        | Raise e => Raise e
        | Ok approvals_ys => Ok (approvals_xs ++ approvals_ys)
        end
    end.
Proof.
  unfold collect_approvals. rewrite !for_approval_step_closed_form. simpl.
  rewrite first_missing_app, flat_map_app.
  destruct (first_missing label xs); [reflexivity|].
  destruct (first_missing label ys); reflexivity.
Qed.

(** X3. The scan reads nothing but [type], [server_label] and [id]: two
    sequences whose items agree pairwise on these three attributes are
    scanned alike, whatever else the items hold. *)
Theorem collect_approvals_reads_three (label : string) (xs ys : list Item) (w : World) :
  Forall2 same_scanned_attributes xs ys ->
  collect_approvals label xs w = collect_approvals label ys w.
Proof.
  intros H. unfold collect_approvals. rewrite !for_approval_step_closed_form.
  f_equal. induction H as [|a b xs ys Hab _ IH]; [reflexivity|].
  simpl. destruct (same_scanned_step label a b Hab) as [-> ->].
  destruct (missing_attribute label b); [reflexivity|].
  destruct (first_missing label xs), (first_missing label ys);
    try discriminate IH; [exact IH|].
  injection IH as ->. reflexivity.
Qed.

Lemma collect_approvals_reads_three_witness :
  Forall2 same_scanned_attributes
    [Sample.text_item; Sample.approval_request "custom-mcp-bearer" "r1"]
    [Sample.bare_item;
     <["arguments" := VStr "{}"]> (Sample.approval_request "custom-mcp-bearer" "r1")]
  /\ collect_approvals "custom-mcp-bearer"
       [Sample.text_item; Sample.approval_request "custom-mcp-bearer" "r1"] (start ∅ no_dotenv)
     = collect_approvals "custom-mcp-bearer"
         [Sample.bare_item;
          <["arguments" := VStr "{}"]> (Sample.approval_request "custom-mcp-bearer" "r1")]
         (start ∅ no_dotenv).
Proof.
  assert (H : Forall2 same_scanned_attributes
                [Sample.text_item; Sample.approval_request "custom-mcp-bearer" "r1"]
                [Sample.bare_item;
                 <["arguments" := VStr "{}"]>
                   (Sample.approval_request "custom-mcp-bearer" "r1")])
    by (repeat constructor).
  split; [exact H|].
  exact (collect_approvals_reads_three "custom-mcp-bearer" _ _ (start ∅ no_dotenv) H).
Defined.

(** X4. An approval request for another server is stepped over before
    its identifier is looked at: the iteration succeeds and leaves the
    list alone even when the item has no [id] attribute, and the scan
    behaves as if the item were absent. *)
Theorem other_labels_skipped (label : string) (pre post : list Item) (item : Item)
    (sl : PyVal) (w : World) :
  item !! "type" = Some (VStr "mcp_approval_request") ->
  item !! "server_label" = Some sl ->
  sl <> VStr label ->
  (forall input_list, approval_step label item input_list w = (w, Ok input_list))
  /\ collect_approvals label (pre ++ item :: post) w
     = collect_approvals label (pre ++ post) w.
Proof.
  intros Hty Hsl Hne.
  assert (Hlabel : py_eq_str sl label = false).
  { destruct (py_eq_str sl label) eqn:E; [|reflexivity].
    apply py_eq_str_true in E. contradiction. }
  assert (Hstep : forall acc w1, approval_step label item acc w1 = (w1, Ok acc)).
  { intros acc w1. rewrite approval_step_closed_form.
    unfold missing_attribute, contribution, approvable, is_approval_request, label_matches.
    rewrite Hty, Hsl. simpl. rewrite Hlabel. simpl. now rewrite app_nil_r. }
  split.
  - intros input_list. apply Hstep.
  - unfold collect_approvals. rewrite !for_app. unfold bind.
    destruct (for_ pre (approval_step label) [] w) as [w1 [acc|e]]; [|reflexivity].
    simpl. unfold bind. now rewrite Hstep.
Qed.

Lemma other_labels_skipped_witness :
  delete "id" (Sample.approval_request "other-tool" "r2") !! "type"
  = Some (VStr "mcp_approval_request")
  /\ delete "id" (Sample.approval_request "other-tool" "r2") !! "server_label"
     = Some (VStr "other-tool")
  /\ VStr "other-tool" <> VStr "custom-mcp-bearer"
  /\ collect_approvals "custom-mcp-bearer"
       ([Sample.approval_request "custom-mcp-bearer" "r1"]
        ++ delete "id" (Sample.approval_request "other-tool" "r2") :: [])
       (start ∅ no_dotenv)
     = collect_approvals "custom-mcp-bearer"
         ([Sample.approval_request "custom-mcp-bearer" "r1"] ++ []) (start ∅ no_dotenv).
Proof.
  assert (Hty : delete "id" (Sample.approval_request "other-tool" "r2") !! "type"
                = Some (VStr "mcp_approval_request")) by reflexivity.
  assert (Hsl : delete "id" (Sample.approval_request "other-tool" "r2") !! "server_label"
                = Some (VStr "other-tool")) by reflexivity.
  assert (Hne : VStr "other-tool" <> VStr "custom-mcp-bearer") by discriminate.
  split; [exact Hty|]. split; [exact Hsl|]. split; [exact Hne|].
  exact (proj2 (other_labels_skipped "custom-mcp-bearer"
                  [Sample.approval_request "custom-mcp-bearer" "r1"] []
                  (delete "id" (Sample.approval_request "other-tool" "r2"))
                  (VStr "other-tool") (start ∅ no_dotenv) Hty Hsl Hne)).
Defined.

(** ** Whole runs *)

Ltac found_event := solve [find_event].

Ltac find_in := simpl; repeat first [left; reflexivity | right].

(** The scan of mcp-custom-create.py stops the run when the response
    holds an approval request without an identifier attribute. *)
Example custom_create_broken_request :
  result_of McpCustomCreate Sample.svc_broken_request Sample.env_ok no_dotenv
  = Raise (AttributeError "id").
Proof. vm_compute. reflexivity. Qed.

(** X5. The [with] statement releases what it acquired: in every run,
    successful or not, the exits are the last events of the trace, one
    for each manager that was entered, in the reverse order of entry. *)
Theorem managers_released (p : Program) (svc : Service) (env : gmap string string) (dotenv : DotEnv) :
  let t := trace_of p svc env dotenv in
  releases t = rev (acquisitions t)
  /\ t = List.filter (fun ev => negb (is_exit ev)) t
         ++ map (fun '(m, h) => EvExit m h) (releases t).
Proof.
  destruct p; run_script; split; reflexivity.
Qed.

(** X6. The calls of a run are an initial part of one fixed sequence:
    credential, project client, OpenAI client, agent (created or looked
    up), conversation, prompt, prompt. There is never a third prompt
    submission, and a run ends normally exactly when all seven calls
    were made and none failed. *)
Theorem calls_follow_protocol (p : Program) (svc : Service)
    (env : gmap string string) (dotenv : DotEnv) :
  let t := trace_of p svc env dotenv in
  call_kinds t `prefix_of` protocol p
  /\ (result_of p svc env dotenv = Ok tt
      <-> call_kinds t = protocol p /\ existsb is_failed_call t = false).
Proof.
  destruct p; run_script.
  all: split; [eexists; reflexivity|].
  all: split; [intros H; try discriminate H; split; reflexivity
              |intros [Hk Hf]; try discriminate Hk; try discriminate Hf; reflexivity].
Qed.

(** X7. A call only goes through a manager while it is open: the handle
    a call uses was acquired earlier in the run and is released later
    in it. *)
Theorem handles_in_scope (p : Program) (svc : Service) (env : gmap string string) (dotenv : DotEnv)
    (pre post : Trace) (c : Call) (r : Result Reply) (u : Manager * Handle) :
  trace_of p svc env dotenv = pre ++ EvCall c r :: post ->
  uses c = Some u ->
  In u (acquisitions pre) /\ In u (releases post).
Proof.
  intros H Hu. apply splits_complete in H. revert H.
  destruct p; run_script; intros H; cases_of H.
  all: injection H as <- <- <- <-; cbn [uses] in Hu; try discriminate Hu.
  all: injection Hu as <-; split; find_in.
Qed.

Lemma handles_in_scope_witness :
  trace_of McpCustomCreate Sample.svc_ok Sample.env_ok no_dotenv
  = Sample.until_resubmission
    ++ EvCall (responses_create_ 3 Sample.second_kwargs) Sample.resubmission_reply
    :: Sample.after_resubmission
  /\ uses (responses_create_ 3 Sample.second_kwargs) = Some (OpenAIClientCM, 3)
  /\ In (OpenAIClientCM, 3) (acquisitions Sample.until_resubmission)
  /\ In (OpenAIClientCM, 3) (releases Sample.after_resubmission).
Proof.
  assert (H : trace_of McpCustomCreate Sample.svc_ok Sample.env_ok no_dotenv
              = Sample.until_resubmission
                ++ EvCall (responses_create_ 3 Sample.second_kwargs)
                     Sample.resubmission_reply
                :: Sample.after_resubmission)
    by (vm_compute; reflexivity).
  split; [exact H|]. split; [reflexivity|].
  exact (handles_in_scope McpCustomCreate Sample.svc_ok Sample.env_ok no_dotenv
           Sample.until_resubmission Sample.after_resubmission
           (responses_create_ 3 Sample.second_kwargs) Sample.resubmission_reply
           (OpenAIClientCM, 3) H eq_refl).
Defined.

(** X8. The configuration reaches the calls unchanged; the environment
    meant is the one [load_dotenv()] leaves behind, the file resolved
    against the process environment. The project
    client is built for the endpoint of the environment, the agent
    looked up is the one the environment names, and the agent created
    runs the environment's model with exactly one MCP tool, whose server
    label is the label the scan approves and whose only header is
    [Authorization: Bearer] followed by the environment's token. *)
Theorem calls_configured (p : Program) (svc : Service) (env : gmap string string) (dotenv : DotEnv) :
  Forall (configured p (env ∪ dotenv env)) (trace_of p svc env dotenv).
Proof.
  destruct p; run_script.
  all: repeat (apply Forall_cons_2; [cbn; eauto 10|]); apply Forall_nil_2.
Qed.

(** X9. Every prompt submission addresses the agent by the name the
    agent service returned for it in this run, as an [agent_reference]. *)
Theorem agent_referenced (p : Program) (svc : Service) (env : gmap string string) (dotenv : DotEnv) :
  Forall (references_agent (trace_of p svc env dotenv)) (trace_of p svc env dotenv).
Proof.
  destruct p; run_script.
  all: repeat (apply Forall_cons_2;
               [first [exact I | eexists _, _; split; [find_event|reflexivity]]|]);
       apply Forall_nil_2.
Qed.

(** X10. What is printed is what is sent: the two events right before a
    submission of approvals are the line "Final input:" and the print
    of that very list. *)
Theorem approvals_printed (p : Program) (svc : Service) (env : gmap string string) (dotenv : DotEnv)
    (pre post : Trace) (oc : Handle) (kwargs : ResponsesCreate) (reply : Result Reply)
    (input_list : list McpApprovalResponse) :
  trace_of p svc env dotenv
  = pre ++ EvCall (responses_create_ oc kwargs) reply :: post ->
  input kwargs = InputList input_list ->
  exists before,
    pre = before ++ [EvPrint (Line "Final input:"); EvPrint (Repr input_list)].
Proof.
  intros H Hin. apply splits_complete in H. revert H.
  destruct p; run_script; intros H; cases_of H.
  all: injection H as <- <- <- <- <-; try discriminate Hin.
  all: injection Hin as <-.
  all: eexists (_ :: _ :: _ :: _ :: _ :: _ :: _ :: _ :: []); reflexivity.
Qed.

Lemma approvals_printed_witness :
  trace_of McpCustomCreate Sample.svc_ok Sample.env_ok no_dotenv
  = Sample.until_resubmission
    ++ EvCall (responses_create_ 3 Sample.second_kwargs) Sample.resubmission_reply
    :: Sample.after_resubmission
  /\ input Sample.second_kwargs = InputList [approval (VStr "r1")]
  /\ exists before,
       Sample.until_resubmission
       = before ++ [EvPrint (Line "Final input:"); EvPrint (Repr [approval (VStr "r1")])].
Proof.
  assert (H : trace_of McpCustomCreate Sample.svc_ok Sample.env_ok no_dotenv
              = Sample.until_resubmission
                ++ EvCall (responses_create_ 3 Sample.second_kwargs)
                     Sample.resubmission_reply
                :: Sample.after_resubmission)
    by (vm_compute; reflexivity).
  split; [exact H|]. split; [reflexivity|].
  exact (approvals_printed McpCustomCreate Sample.svc_ok Sample.env_ok no_dotenv
           Sample.until_resubmission Sample.after_resubmission 3 Sample.second_kwargs
           Sample.resubmission_reply [approval (VStr "r1")] H eq_refl).
Defined.

(** X11. A run that ends normally has, as its last two events before
    the exits, the successful submission of the approvals and the line
    "Agent response: " followed by the text of the response to it. *)
Theorem answer_printed (p : Program) (svc : Service) (env : gmap string string) (dotenv : DotEnv) :
  result_of p svc env dotenv = Ok tt ->
  exists before oc kwargs response input_list,
    List.filter (fun ev => negb (is_exit ev)) (trace_of p svc env dotenv)
    = before
      ++ [EvCall (responses_create_ oc kwargs) (Ok (RResponse response));
          EvPrint (Line ("Agent response: " ++ Response.output_text response)%string)]
    /\ input kwargs = InputList input_list.
Proof.
  destruct p; run_script; intros H; try discriminate H.
  all: eexists (_ :: _ :: _ :: _ :: _ :: _ :: _ :: _ :: _ :: _ :: []), _, _, _, _;
       split; reflexivity.
Qed.

Lemma answer_printed_witness :
  result_of McpCustomCreate Sample.svc_ok Sample.env_ok no_dotenv = Ok tt
  /\ exists before oc kwargs response input_list,
       List.filter (fun ev => negb (is_exit ev))
         (trace_of McpCustomCreate Sample.svc_ok Sample.env_ok no_dotenv)
       = before
         ++ [EvCall (responses_create_ oc kwargs) (Ok (RResponse response));
             EvPrint (Line ("Agent response: " ++ Response.output_text response)%string)]
       /\ input kwargs = InputList input_list.
Proof.
  assert (H : result_of McpCustomCreate Sample.svc_ok Sample.env_ok no_dotenv = Ok tt)
    by (vm_compute; reflexivity).
  split; [exact H|].
  exact (answer_printed McpCustomCreate Sample.svc_ok Sample.env_ok no_dotenv H).
Defined.

(** X12. A run can fail in three ways only: with the [KeyError] of a
    required key the environment lacks; with the exception of a
    collaborator call that failed; or with the [AttributeError] of the
    attribute the scan missed in the output of the first response, in
    which case the first prompt submission was the last call made. *)
Theorem failure_causes (p : Program) (svc : Service) (env : gmap string string) (dotenv : DotEnv)
    (e : Exn) :
  result_of p svc env dotenv = Raise e ->
  (exists k, In k (required_keys p) /\ (env ∪ dotenv env) !! k = None /\ e = KeyError k)
  \/ (exists c, In (EvCall c (Raise e)) (trace_of p svc env dotenv))
  \/ (exists oc kwargs response a,
        In (EvCall (responses_create_ oc kwargs) (Ok (RResponse response)))
          (trace_of p svc env dotenv)
        /\ first_missing (expected_label p) (Response.output response) = Some a
        /\ e = AttributeError a
        /\ call_kinds (trace_of p svc env dotenv)
           = [KCredential; KProjectClient; KOpenAIClient;
              match p with
              | McpCustomCreate => KAgentCreate
              | McpMicrosoftLearnExisting => KAgentGet
              end; KConversation; KResponse]).
Proof.
  destruct p; run_script; intros H; try discriminate H.
  all: injection H as <-.
  all: try (left; eexists; split; [|split; [eassumption|reflexivity]]; found_event).
  all: try (right; left; eexists; found_event).
  all: right; right.
  all: match goal with
       | Hs : snd (collect_approvals ?l ?o ?w) = Raise _ |- _ =>
           pose proof (for_approval_step_closed_form l o [] w) as Hc;
           unfold collect_approvals in Hs;
           rewrite Hc in Hs; simpl in Hs;
           destruct (first_missing l o) eqn:Hm; [|discriminate Hs];
           injection Hs as <-
       end.
  all: eexists _, _, _, _; split; [find_event|]; repeat split; eassumption || reflexivity.
Qed.

Lemma failure_causes_witness :
  result_of McpCustomCreate Sample.svc_broken_request Sample.env_ok no_dotenv
  = Raise (AttributeError "id")
  /\ ((exists k, In k (required_keys McpCustomCreate)
                 /\ (Sample.env_ok ∪ no_dotenv Sample.env_ok) !! k = None /\ AttributeError "id" = KeyError k)
      \/ (exists c, In (EvCall c (Raise (AttributeError "id")))
                      (trace_of McpCustomCreate Sample.svc_broken_request Sample.env_ok no_dotenv))
      \/ (exists oc kwargs response a,
            In (EvCall (responses_create_ oc kwargs) (Ok (RResponse response)))
              (trace_of McpCustomCreate Sample.svc_broken_request Sample.env_ok no_dotenv)
            /\ first_missing (expected_label McpCustomCreate) (Response.output response)
               = Some a
            /\ AttributeError "id" = AttributeError a
            /\ call_kinds (trace_of McpCustomCreate Sample.svc_broken_request
                             Sample.env_ok no_dotenv)
               = [KCredential; KProjectClient; KOpenAIClient; KAgentCreate;
                  KConversation; KResponse])).
Proof.
  assert (H : result_of McpCustomCreate Sample.svc_broken_request Sample.env_ok no_dotenv
              = Raise (AttributeError "id"))
    by (vm_compute; reflexivity).
  split; [exact H|].
  exact (failure_causes McpCustomCreate Sample.svc_broken_request Sample.env_ok no_dotenv
           (AttributeError "id") H).
Defined.
